(** * Orbit simulation model: [src/simulation/model.ts]

    A shallow embedding of the simulation-state builder
    [createSimulationFromRow] and of the methods of the object it returns,
    followed by the properties of the model that the specification states.

    Numbers.  A JavaScript number is modelled by [number]: a real, or one of
    the three non-finite values [NaN], [+Infinity], [-Infinity].  Arithmetic
    on finite values is the exact arithmetic of the reals (rounding, overflow
    and the sign of zero are not modelled); the non-finite cases follow
    IEEE 754, which is what [Number.isFinite] and the comparison operators of
    the source observe. *)

From Stdlib Require Import Ascii String Reals Lra Lia List.
From stdpp Require Import gmap strings.
Import ListNotations.

Local Open Scope R_scope.

(** ** JavaScript numbers *)

Inductive number : Type :=
  | Fin (r : R)
  | PInf
  | NInf
  | NaN.

(** [Number.isFinite]. *)
Definition Number_isFinite (n : number) : bool :=
  match n with
  | Fin _ => true
  | _ => false
  end.

(** Sign tests on reals, as booleans. *)
Definition Rltb (a b : R) : bool := if Rlt_dec a b then true else false.
Definition Rleb (a b : R) : bool := if Rle_dec a b then true else false.
Definition Reqb (a b : R) : bool := if Req_dec_T a b then true else false.

(** The relational operators [<], [<=], [>], [>=]: every comparison with
    [NaN] is false. *)
Definition js_lt (a b : number) : bool :=
  match a, b with
  | NaN, _ | _, NaN => false
  | Fin x, Fin y => Rltb x y
  | _, NInf => false
  | NInf, _ => true
  | PInf, _ => false
  | Fin _, PInf => true
  end.

Definition js_le (a b : number) : bool :=
  match a, b with
  | NaN, _ | _, NaN => false
  | Fin x, Fin y => Rleb x y
  | NInf, _ => true
  | _, PInf => true
  | _, _ => false
  end.

Definition js_gt (a b : number) : bool := js_lt b a.
Definition js_ge (a b : number) : bool := js_le b a.

(** The arithmetic operators [+], [*], [/]. *)
Definition js_add (a b : number) : number :=
  match a, b with
  | NaN, _ | _, NaN => NaN
  | Fin x, Fin y => Fin (x + y)
  | PInf, NInf | NInf, PInf => NaN
  | PInf, _ | _, PInf => PInf
  | NInf, _ | _, NInf => NInf
  end.

(** An infinity of sign [pos] scaled by the finite factor [y]. *)
Definition inf_times (pos : bool) (y : R) : number :=
  if Reqb y 0 then NaN
  else if Bool.eqb pos (Rltb 0 y) then PInf else NInf.

Definition js_mul (a b : number) : number :=
  match a, b with
  | NaN, _ | _, NaN => NaN
  | Fin x, Fin y => Fin (x * y)
  | PInf, Fin y | Fin y, PInf => inf_times true y
  | NInf, Fin y | Fin y, NInf => inf_times false y
  | PInf, PInf | NInf, NInf => PInf
  | PInf, NInf | NInf, PInf => NInf
  end.

(** A zero divisor is taken as [+0]: the one divisor of the source that can
    vanish is the sum [1 + e * cos t], and a sum that cancels is [+0]. *)
Definition js_div (a b : number) : number :=
  match a, b with
  | NaN, _ | _, NaN => NaN
  | Fin x, Fin y =>
      if Reqb y 0 then
        if Reqb x 0 then NaN else if Rltb 0 x then PInf else NInf
      else Fin (x / y)
  | Fin _, _ => Fin 0
  | PInf, Fin y => if Rltb y 0 then NInf else PInf
  | NInf, Fin y => if Rltb y 0 then PInf else NInf
  | _, _ => NaN
  end.

Definition js_sub (a b : number) : number :=
  match b with
  | Fin y => js_add a (Fin (- y))
  | PInf => js_add a NInf
  | NInf => js_add a PInf
  | NaN => NaN
  end.

(** ** The [Math] object *)

Definition Math_PI : number := Fin PI.

(** [Math.pow(b, e)] for a finite base [b > 1]; the source calls it with
    base 10 only. *)
Definition Math_pow (b : R) (e : number) : number :=
  match e with
  | Fin x => Fin (Rpower b x)
  | PInf => PInf
  | NInf => Fin 0
  | NaN => NaN
  end.

Definition Math_sqrt (a : number) : number :=
  match a with
  | Fin x => if Rltb x 0 then NaN else Fin (sqrt x)
  | PInf => PInf
  | _ => NaN
  end.

Definition Math_cos (a : number) : number :=
  match a with
  | Fin x => Fin (cos x)
  | _ => NaN
  end.

Definition Math_sin (a : number) : number :=
  match a with
  | Fin x => Fin (sin x)
  | _ => NaN
  end.

Definition Math_min (a b : number) : number :=
  match a, b with
  | NaN, _ | _, NaN => NaN
  | Fin x, Fin y => Fin (Rmin x y)
  | NInf, _ | _, NInf => NInf
  | PInf, o | o, PInf => o
  end.

Definition Math_max (a b : number) : number :=
  match a, b with
  | NaN, _ | _, NaN => NaN
  | Fin x, Fin y => Fin (Rmax x y)
  | PInf, _ | _, PInf => PInf
  | NInf, o | o, NInf => o
  end.

(** ** Numeric coercion of strings

    [StringToNumber] of ECMAScript, which [Number(v)] applies to a string:
    surrounding white space is dropped, the empty string is [0], and the rest
    must be a decimal literal (optional sign, [Infinity] or digits with an
    optional fraction and exponent) or an unsigned binary, octal or
    hexadecimal integer; anything else is [NaN].  Strings are sequences of
    ASCII characters, as the catalog's field names and values are. *)

Local Open Scope char_scope.

Definition is_white_space (c : ascii) : bool :=
  match c with
  | "009" | "010" | "011" | "012" | "013" | " " => true
  | _ => false
  end.

Fixpoint drop_white_space (l : list ascii) : list ascii :=
  match l with
  | c :: r => if is_white_space c then drop_white_space r else l
  | [] => []
  end.

Definition trim (l : list ascii) : list ascii :=
  rev (drop_white_space (rev (drop_white_space l))).

(** The value of a digit character, for bases up to 16. *)
Definition digit_value (c : ascii) : option Z :=
  let n := Z.of_nat (nat_of_ascii c) in
  if ((48 <=? n) && (n <=? 57))%Z then Some (n - 48)%Z
  else if ((97 <=? n) && (n <=? 102))%Z then Some (n - 87)%Z
  else if ((65 <=? n) && (n <=? 70))%Z then Some (n - 55)%Z
  else None.

Definition is_decimal_digit (c : ascii) : bool :=
  match digit_value c with
  | Some d => (d <? 10)%Z
  | None => false
  end.

(** The integer written by a run of digits of the given base; [None] when a
    character is not such a digit. *)
Fixpoint digits_value (base acc : Z) (l : list ascii) : option Z :=
  match l with
  | [] => Some acc
  | c :: r =>
      match digit_value c with
      | Some d =>
          if (d <? base)%Z then digits_value base (acc * base + d)%Z r
          else None
      | None => None
      end
  end.

Definition nonempty_digits (base : Z) (l : list ascii) : option Z :=
  match l with
  | [] => None
  | _ => digits_value base 0 l
  end.

(** The leading decimal digits of [l], and what follows them. *)
Fixpoint span_digits (l : list ascii) : list ascii * list ascii :=
  match l with
  | c :: r =>
      if is_decimal_digit c
      then let (ds, rest) := span_digits r in (c :: ds, rest)
      else ([], l)
  | [] => ([], [])
  end.

(** [ExponentPart], optional: the empty rest is exponent 0. *)
Definition parse_exponent (l : list ascii) : option Z :=
  match l with
  | [] => Some 0%Z
  | c :: r =>
      if (Ascii.eqb c "e" || Ascii.eqb c "E")%bool then
        match r with
        | "+" :: ds => nonempty_digits 10 ds
        | "-" :: ds => option_map Z.opp (nonempty_digits 10 ds)
        | ds => nonempty_digits 10 ds
        end
      else None
  end.

(** [StrUnsignedDecimalLiteral]. *)
Definition parse_unsigned_decimal (l : list ascii) : option number :=
  if decide (l = list_ascii_of_string "Infinity") then Some PInf
  else
    let (ip, r1) := span_digits l in
    let '(fp, r2) :=
      match r1 with
      | "." :: r => span_digits r
      | _ => ([], r1)
      end in
    match ip ++ fp with
    | [] => None
    | ds =>
        match parse_exponent r2, digits_value 10 0 ds with
        | Some e, Some m =>
            Some (Fin (IZR m * powerRZ 10 (e - Z.of_nat (length fp))))
        | _, _ => None
        end
    end.

Definition number_opp (a : number) : number :=
  match a with
  | Fin x => Fin (- x)
  | PInf => NInf
  | NInf => PInf
  | NaN => NaN
  end.

Definition parse_numeric_literal (l : list ascii) : option number :=
  match l with
  | [] => Some (Fin 0)
  | "0" :: "x" :: ds | "0" :: "X" :: ds =>
      option_map (fun m => Fin (IZR m)) (nonempty_digits 16 ds)
  | "0" :: "o" :: ds | "0" :: "O" :: ds =>
      option_map (fun m => Fin (IZR m)) (nonempty_digits 8 ds)
  | "0" :: "b" :: ds | "0" :: "B" :: ds =>
      option_map (fun m => Fin (IZR m)) (nonempty_digits 2 ds)
  | "+" :: r => parse_unsigned_decimal r
  | "-" :: r => option_map number_opp (parse_unsigned_decimal r)
  | _ => parse_unsigned_decimal l
  end.

Definition StringToNumber (s : string) : number :=
  match parse_numeric_literal (trim (list_ascii_of_string s)) with
  | Some n => n
  | None => NaN
  end.

Local Close Scope char_scope.

(** [String.prototype.toUpperCase], on ASCII strings. *)
Definition upper_char (c : ascii) : ascii :=
  let n := nat_of_ascii c in
  if ((97 <=? n) && (n <=? 122))%nat then ascii_of_nat (n - 32) else c.

Fixpoint toUpperCase (s : string) : string :=
  match s with
  | EmptyString => EmptyString
  | String c r => String (upper_char c) (toUpperCase r)
  end.

(** ** Values and records

    A raw record maps field names to scalars; [row[key]] of a field the
    record does not have is [undefined]. *)

Inductive value : Type :=
  | VUndefined
  | VNull
  | VBoolean (b : bool)
  | VNumber (n : number)
  | VString (s : string).

(** [Number(v)]. *)
Definition Number (v : value) : number :=
  match v with
  | VUndefined => NaN
  | VNull => Fin 0
  | VBoolean true => Fin 1
  | VBoolean false => Fin 0
  | VNumber n => n
  | VString s => StringToNumber s
  end.

(** [v == null]: true of [null] and [undefined] only. *)
Definition is_nullish (v : value) : bool :=
  match v with
  | VUndefined | VNull => true
  | _ => false
  end.

(** [a ?? b]. *)
Definition nullish_coalesce (a b : value) : value :=
  if is_nullish a then b else a.

(** Truthiness, as [a || b] tests it. *)
Definition truthy (v : value) : bool :=
  match v with
  | VUndefined | VNull => false
  | VBoolean b => b
  | VNumber (Fin x) => negb (Reqb x 0)
  | VNumber NaN => false
  | VNumber _ => true
  | VString s => negb (String.eqb s "")
  end.

Definition logical_or (a b : value) : value :=
  if truthy a then a else b.

Definition property (row : gmap string value) (key : string) : value :=
  default VUndefined (row !! key).

(** ** [model.ts] *)

Definition get (row : gmap string value) (key : string) : value :=
  nullish_coalesce
    (nullish_coalesce (property row key) (property row (toUpperCase key)))
    VNull.

Definition num (row : gmap string value) (key : string) (fallback : number)
  : number :=
  let v := get row key in
  if negb (is_nullish v) && Number_isFinite (Number v)
  then Number v else fallback.

Record HzBounds : Type := { inner : number; outer : number }.

(** The argument is [number | null]: [None] is [null]. *)
Definition habitableZoneAU (stLum : option number) : HzBounds :=
  match stLum with
  | None => {| inner := Fin 0.75; outer := Fin 1.77 |}
  | Some l =>
      if negb (Number_isFinite l)
      then {| inner := Fin 0.75; outer := Fin 1.77 |}
      else
        let L := Math_pow 10 l in
        {| inner := js_mul (Fin 0.75) (Math_sqrt L);
           outer := js_mul (Fin 1.77) (Math_sqrt L) |}
  end.

Definition SUN_RADIUS_AU : number := Fin 0.005.
Definition MIN_STAR_RADIUS : number := Fin 0.012.
Definition MIN_PLANET_RADIUS : number := Fin 0.008.

Inductive HzStatus : Type := StatusIn | StatusTooClose | StatusTooFar.

Record Vec3 : Type := { x : number; y : number; z : number }.

(** The object [createSimulationFromRow] returns: its sixteen read-only
    fields, and the two variables its methods close over, the orbit-point
    cache and the phase accumulator [time]. *)
Record SimulationState : Type := {
  plName : value;
  hostName : value;
  orbitAu : number;
  planetRadiusRe : number;
  hzInnerAu : number;
  hzOuterAu : number;
  inHabitableZone : bool;
  habitableZoneStatus : HzStatus;
  orbitalPeriodDays : number;
  starRadius : number;
  orbitRadius : number;
  planetRadius : number;
  hzInner : number;
  hzOuter : number;
  orbitEccentricity : number;
  eccentricityKnown : bool;
  orbitPointsCache : list Vec3;
  time : number
}.

(** [radiusAtAngle] and [positionAtTime] close over [orbitRadius] and
    [orbitEccentricity]. *)
Definition radiusAtAngle (orbitRadius orbitEccentricity t : number) : number :=
  js_div
    (js_mul orbitRadius
       (js_sub (Fin 1) (js_mul orbitEccentricity orbitEccentricity)))
    (js_add (Fin 1) (js_mul orbitEccentricity (Math_cos t))).

Definition positionAtTime (orbitRadius orbitEccentricity t : number) : Vec3 :=
  let r := radiusAtAngle orbitRadius orbitEccentricity t in
  {| x := js_mul r (Math_cos t);
     y := Fin 0;
     z := js_mul r (Math_sin t) |}.

(** The angle of the [i]-th cached point: [(i / 64) * Math.PI * 2]. *)
Definition orbitPointAngle (i : nat) : number :=
  js_mul (js_mul (js_div (Fin (INR i)) (Fin 64)) Math_PI) (Fin 2).

(** The loop [for (let i = 0; i <= 64; i++) cache.push(positionAtTime(t))];
    [n] counts the iterations still to run. *)
Fixpoint fillOrbitPoints (orbitRadius orbitEccentricity : number)
    (n i : nat) (cache : list Vec3) : list Vec3 :=
  match n with
  | O => cache
  | S n' =>
      fillOrbitPoints orbitRadius orbitEccentricity n' (S i)
        (cache ++ [positionAtTime orbitRadius orbitEccentricity
                     (orbitPointAngle i)])
  end.

Definition createSimulationFromRow (row : gmap string value)
  : SimulationState :=
  let plName := logical_or (get row "pl_name") (VString "Planet") in
  let hostName := logical_or (get row "hostname") (VString "Star") in
  let stRad := num row "st_rad" (Fin 1) in
  let stLum := num row "st_lum" (Fin 0) in
  let plOrbsmax := num row "pl_orbsmax" (Fin 1) in
  let plOrbeccenRaw := get row "pl_orbeccen" in
  let eccentricityKnown :=
    negb (is_nullish plOrbeccenRaw)
    && Number_isFinite (Number plOrbeccenRaw) in
  let plOrbeccen := num row "pl_orbeccen" (Fin 0) in
  let plRade := num row "pl_rade" (Fin 1) in
  let plOrbper := num row "pl_orbper" (Fin 365) in
  let hzAu := habitableZoneAU (Some stLum) in
  let inHz := js_ge plOrbsmax (inner hzAu) && js_le plOrbsmax (outer hzAu) in
  let habitableZoneStatus :=
    if inHz then StatusIn
    else if js_lt plOrbsmax (inner hzAu) then StatusTooClose
    else StatusTooFar in
  let orbitEccentricity := Math_min (Fin 0.99) plOrbeccen in
  let orbitRadius := plOrbsmax in
  let hzInner := inner hzAu in
  let hzOuter := outer hzAu in
  let starRadius := Math_max MIN_STAR_RADIUS (js_mul stRad SUN_RADIUS_AU) in
  (* [plRade ?? 1]: a number is never nullish, so this is [plRade]. *)
  let planetRadius :=
    Math_max MIN_PLANET_RADIUS (js_mul plRade (Fin 0.00004)) in
  let orbitalPeriodDays :=
    if js_gt plOrbper (Fin 0) then plOrbper else Fin 365 in
  let time := Fin 0 in
  let orbitPointsCache :=
    fillOrbitPoints orbitRadius orbitEccentricity 65 0 [] in
  {| plName := plName;
     hostName := hostName;
     orbitAu := plOrbsmax;
     planetRadiusRe := plRade;
     hzInnerAu := inner hzAu;
     hzOuterAu := outer hzAu;
     inHabitableZone := inHz;
     habitableZoneStatus := habitableZoneStatus;
     orbitalPeriodDays := orbitalPeriodDays;
     starRadius := starRadius;
     orbitRadius := orbitRadius;
     planetRadius := planetRadius;
     hzInner := hzInner;
     hzOuter := hzOuter;
     orbitEccentricity := orbitEccentricity;
     eccentricityKnown := eccentricityKnown;
     orbitPointsCache := orbitPointsCache;
     time := time |}.

(** ** The methods of the state

    A method reads the state and, for [update] only, writes [time]. *)

Definition set_time (s : SimulationState) (t : number) : SimulationState :=
  {| plName := plName s;
     hostName := hostName s;
     orbitAu := orbitAu s;
     planetRadiusRe := planetRadiusRe s;
     hzInnerAu := hzInnerAu s;
     hzOuterAu := hzOuterAu s;
     inHabitableZone := inHabitableZone s;
     habitableZoneStatus := habitableZoneStatus s;
     orbitalPeriodDays := orbitalPeriodDays s;
     starRadius := starRadius s;
     orbitRadius := orbitRadius s;
     planetRadius := planetRadius s;
     hzInner := hzInner s;
     hzOuter := hzOuter s;
     orbitEccentricity := orbitEccentricity s;
     eccentricityKnown := eccentricityKnown s;
     orbitPointsCache := orbitPointsCache s;
     time := t |}.

Definition getOrbitPoints (s : SimulationState) : list Vec3 :=
  orbitPointsCache s.

Definition update (s : SimulationState) (deltaTime : number)
  : SimulationState :=
  set_time s (js_add (time s) deltaTime).

Definition getPlanetPosition (s : SimulationState) : Vec3 :=
  positionAtTime (orbitRadius s) (orbitEccentricity s) (time s).

Definition getElapsedDays (s : SimulationState) : number :=
  js_mul (js_div (time s) (js_mul (Fin 2) Math_PI)) (orbitalPeriodDays s).

Definition getElapsedYears (s : SimulationState) : number :=
  js_div (getElapsedDays s) (Fin 365.25).

(** A method call, what it returns, and its effect on the state. *)
Inductive call : Type :=
  | CallGetOrbitPoints
  | CallUpdate (deltaTime : number)
  | CallGetPlanetPosition
  | CallGetElapsedDays
  | CallGetElapsedYears.

Inductive result : Type :=
  | RVoid
  | RPoints (ps : list Vec3)
  | RPosition (p : Vec3)
  | RNumber (n : number).

Definition invoke (c : call) (s : SimulationState)
  : SimulationState * result :=
  match c with
  | CallGetOrbitPoints => (s, RPoints (getOrbitPoints s))
  | CallUpdate dt => (update s dt, RVoid)
  | CallGetPlanetPosition => (s, RPosition (getPlanetPosition s))
  | CallGetElapsedDays => (s, RNumber (getElapsedDays s))
  | CallGetElapsedYears => (s, RNumber (getElapsedYears s))
  end.

(** The state after a sequence of calls, first call first. *)
Fixpoint run (calls : list call) (s : SimulationState) : SimulationState :=
  match calls with
  | [] => s
  | c :: rest => run rest (fst (invoke c s))
  end.


(** The calls of a sequence that are updates step by a finite, non-negative
    amount. *)
Definition forward_call (c : call) : Prop :=
  match c with
  | CallUpdate dt => exists d : R, dt = Fin d /\ 0 <= d
  | _ => True
  end.

(** Two states with the same derived fields and the same orbit-point cache. *)
Definition same_parameters (s s' : SimulationState) : Prop :=
  plName s' = plName s /\ hostName s' = hostName s /\
  orbitAu s' = orbitAu s /\ planetRadiusRe s' = planetRadiusRe s /\
  hzInnerAu s' = hzInnerAu s /\ hzOuterAu s' = hzOuterAu s /\
  inHabitableZone s' = inHabitableZone s /\
  habitableZoneStatus s' = habitableZoneStatus s /\
  orbitalPeriodDays s' = orbitalPeriodDays s /\
  starRadius s' = starRadius s /\ orbitRadius s' = orbitRadius s /\
  planetRadius s' = planetRadius s /\
  hzInner s' = hzInner s /\ hzOuter s' = hzOuter s /\
  orbitEccentricity s' = orbitEccentricity s /\
  eccentricityKnown s' = eccentricityKnown s /\
  orbitPointsCache s' = orbitPointsCache s.


(** ** [scene.ts]: the camera and the animation loop

    The renderer is outside the model; what [runScene] computes itself is
    embedded: the scale of the system, the radii of the three disks, the
    orbiting camera driven by mouse and wheel events, and the frame loop that
    advances the simulation. *)

Definition DRAG_SENSITIVITY : number := Fin 0.0005.
Definition ZOOM_SENSITIVITY : number := Fin 0.0004.

(** [Math.max(state.hzOuter, state.orbitRadius, 2)]; the maximum of three
    numbers is [NaN] when one of them is, as the nested maximum is. *)
Definition systemScale (state : SimulationState) : number :=
  Math_max (Math_max (hzOuter state) (orbitRadius state)) (Fin 2).

Definition minRadius (state : SimulationState) : number :=
  js_mul (systemScale state) (Fin 0.5).

Definition maxRadius (state : SimulationState) : number :=
  js_mul (systemScale state) (Fin 4).


(** The variables of [runScene] that the camera handlers share, and
    [camera.position]. *)
Record Camera : Type := {
  cameraRadius : number;
  cameraTheta : number;
  cameraPhi : number;
  isDragging : bool;
  lastY : number;
  cameraPosition : Vec3
}.

Definition updateCameraPosition (state : SimulationState) (c : Camera)
  : Camera :=
  let phi :=
    Math_max (Fin 0.1) (Math_min (js_sub Math_PI (Fin 0.1)) (cameraPhi c)) in
  let radius :=
    Math_max (minRadius state)
      (Math_min (maxRadius state) (cameraRadius c)) in
  {| cameraRadius := radius;
     cameraTheta := cameraTheta c;
     cameraPhi := phi;
     isDragging := isDragging c;
     lastY := lastY c;
     cameraPosition :=
       {| x := js_mul (js_mul radius (Math_sin phi)) (Math_cos (cameraTheta c));
          y := js_mul radius (Math_cos phi);
          z := js_mul (js_mul radius (Math_sin phi))
                 (Math_sin (cameraTheta c)) |} |}.

(** The events the canvas listens to, with the field of the event each
    handler reads. *)
Inductive event : Type :=
  | MouseDown (clientY : number)
  | MouseMove (clientY : number)
  | MouseUp
  | MouseLeave
  | Wheel (deltaY : number).

Definition handle (state : SimulationState) (e : event) (c : Camera)
  : Camera :=
  match e with
  | MouseDown clientY =>
      {| cameraRadius := cameraRadius c;
         cameraTheta := cameraTheta c;
         cameraPhi := cameraPhi c;
         isDragging := true;
         lastY := clientY;
         cameraPosition := cameraPosition c |}
  | MouseMove clientY =>
      if negb (isDragging c) then c
      else
        updateCameraPosition state
          {| cameraRadius := cameraRadius c;
             cameraTheta := cameraTheta c;
             cameraPhi :=
               js_sub (cameraPhi c)
                 (js_mul (js_sub clientY (lastY c)) DRAG_SENSITIVITY);
             isDragging := isDragging c;
             lastY := clientY;
             cameraPosition := cameraPosition c |}
  | MouseUp | MouseLeave =>
      {| cameraRadius := cameraRadius c;
         cameraTheta := cameraTheta c;
         cameraPhi := cameraPhi c;
         isDragging := false;
         lastY := lastY c;
         cameraPosition := cameraPosition c |}
  | Wheel deltaY =>
      updateCameraPosition state
        {| cameraRadius :=
             js_mul (cameraRadius c)
               (js_sub (Fin 1) (js_mul deltaY ZOOM_SENSITIVITY));
           cameraTheta := cameraTheta c;
           cameraPhi := cameraPhi c;
           isDragging := isDragging c;
           lastY := lastY c;
           cameraPosition := cameraPosition c |}
  end.

(** The camera [runScene] starts with: the initial values of its variables,
    then the first call of [updateCameraPosition].  A new camera sits at the
    origin until its position is set. *)
Definition initialCamera (state : SimulationState) : Camera :=
  updateCameraPosition state
    {| cameraRadius := js_mul (systemScale state) (Fin 1.5);
       cameraTheta := js_div Math_PI (Fin 4);
       cameraPhi := js_div Math_PI (Fin 4);
       isDragging := false;
       lastY := Fin 0;
       cameraPosition := {| x := Fin 0; y := Fin 0; z := Fin 0 |} |}.

(** The camera after a sequence of events, first event first. *)
Fixpoint handleAll (state : SimulationState) (es : list event) (c : Camera)
  : Camera :=
  match es with
  | [] => c
  | e :: rest => handleAll state rest (handle state e c)
  end.







(** ** [page.ts]: the name shown in the result list

    The name [renderList] gives a row, a dash when the row has none. *)
Definition listedName (row : gmap string value) : value :=
  nullish_coalesce
    (nullish_coalesce (property row "pl_name") (property row "PL_NAME"))
    (VString "—").



(** * Properties *)

(** ** Comparisons and arithmetic on finite numbers *)

Lemma Rltb_true (a b : R) : Rltb a b = true <-> a < b.
Proof. unfold Rltb. destruct (Rlt_dec a b); split; intros; try lra; discriminate. Qed.

Lemma Rltb_false (a b : R) : Rltb a b = false <-> b <= a.
Proof. unfold Rltb. destruct (Rlt_dec a b); split; intros; try lra; discriminate. Qed.

Lemma Rleb_true (a b : R) : Rleb a b = true <-> a <= b.
Proof. unfold Rleb. destruct (Rle_dec a b); split; intros; try lra; discriminate. Qed.

Lemma Rleb_false (a b : R) : Rleb a b = false <-> b < a.
Proof. unfold Rleb. destruct (Rle_dec a b); split; intros; try lra; discriminate. Qed.

Lemma Reqb_true (a b : R) : Reqb a b = true <-> a = b.
Proof. unfold Reqb. destruct (Req_dec_T a b); split; intros; try lra; discriminate. Qed.

Lemma Reqb_false (a b : R) : Reqb a b = false <-> a <> b.
Proof. unfold Reqb. destruct (Req_dec_T a b); split; intros; try lra; discriminate. Qed.

(** Decide every real comparison that occurs in the goal. *)
Ltac real_cases :=
  repeat match goal with
    | |- context [Rltb ?a ?b] =>
        let H := fresh "Hlt" in
        destruct (Rltb a b) eqn:H;
        [apply Rltb_true in H | apply Rltb_false in H]
    | |- context [Rleb ?a ?b] =>
        let H := fresh "Hle" in
        destruct (Rleb a b) eqn:H;
        [apply Rleb_true in H | apply Rleb_false in H]
    | |- context [Reqb ?a ?b] =>
        let H := fresh "Heq" in
        destruct (Reqb a b) eqn:H;
        [apply Reqb_true in H | apply Reqb_false in H]
    end.

Lemma isFinite_Fin (n : number) :
  Number_isFinite n = true <-> exists r, n = Fin r.
Proof.
  split.
  - destruct n; try discriminate. eauto.
  - intros [r ->]. reflexivity.
Qed.


(** ** Field extraction *)

Lemma get_resolves (row : gmap string value) (key : string) :
  get row key =
  let v := nullish_coalesce (property row key) (property row (toUpperCase key)) in
  if is_nullish v then VNull else v.
Proof. reflexivity. Qed.

Lemma get_nullish (row : gmap string value) (key : string) :
  is_nullish (get row key) =
  is_nullish
    (nullish_coalesce (property row key) (property row (toUpperCase key))).
Proof.
  rewrite get_resolves. cbv zeta.
  destruct (nullish_coalesce _ _); reflexivity.
Qed.

Lemma num_finite (row : gmap string value) (key : string) (r : R) :
  exists r', num row key (Fin r) = Fin r'.
Proof.
  unfold num.
  destruct (negb (is_nullish (get row key))); simpl; [|eauto].
  destruct (Number (get row key)); simpl; eauto.
Qed.

Lemma num_empty (key : string) (fallback : number) :
  num ∅ key fallback = fallback.
Proof. reflexivity. Qed.

(** ** What method calls leave alone *)

Lemma set_time_set_time (s : SimulationState) (t t' : number) :
  set_time (set_time s t) t' = set_time s t'.
Proof. reflexivity. Qed.

Lemma set_time_same (s : SimulationState) : set_time s (time s) = s.
Proof. destruct s; reflexivity. Qed.

Lemma invoke_set_time (c : call) (s : SimulationState) :
  exists t, fst (invoke c s) = set_time s t.
Proof.
  destruct c; simpl; try (exists (time s); symmetry; apply set_time_same).
  eexists; reflexivity.
Qed.

Lemma run_set_time (calls : list call) (s : SimulationState) :
  exists t, run calls s = set_time s t.
Proof.
  revert s. induction calls as [|c rest IH]; intros s; simpl.
  - exists (time s). symmetry. apply set_time_same.
  - destruct (invoke_set_time c s) as [t ->].
    destruct (IH (set_time s t)) as [t' ->].
    exists t'. apply set_time_set_time.
Qed.

Lemma run_app (l1 l2 : list call) (s : SimulationState) :
  run (l1 ++ l2) s = run l2 (run l1 s).
Proof. revert s. induction l1; intros; simpl; auto. Qed.

(** Rewrite the state reached from [s0] as [s0] with another [time]. *)
Ltac reached calls s0 t :=
  let E := fresh "Hrun" in
  destruct (run_set_time calls s0) as [t E]; rewrite E in *; clear E.

Lemma fillOrbitPoints_map (a e : number) (n i : nat) (cache : list Vec3) :
  fillOrbitPoints a e n i cache =
  cache ++ map (fun k => positionAtTime a e (orbitPointAngle k)) (seq i n).
Proof.
  revert i cache. induction n as [|n IH]; intros i cache; simpl.
  - now rewrite app_nil_r.
  - rewrite IH, <- app_assoc. reflexivity.
Qed.

Lemma orbitPointAngle_real (i : nat) :
  orbitPointAngle i = Fin (INR i * (2 * PI) / 64).
Proof.
  unfold orbitPointAngle, Math_PI. simpl.
  replace (Reqb 64 0) with false by (symmetry; apply Reqb_false; lra).
  simpl. f_equal. field.
Qed.

(** ** The habitable-zone band *)

Lemma Rpower_pos (b r : R) : 0 < Rpower b r.
Proof. unfold Rpower. apply exp_pos. Qed.

Lemma habitableZoneAU_finite (r : R) :
  habitableZoneAU (Some (Fin r)) =
  {| inner := Fin (0.75 * sqrt (Rpower 10 r));
     outer := Fin (1.77 * sqrt (Rpower 10 r)) |}.
Proof.
  unfold habitableZoneAU. simpl.
  replace (Rltb (Rpower 10 r) 0) with false; [reflexivity|].
  symmetry. apply Rltb_false. pose proof (Rpower_pos 10 r). lra.
Qed.

Lemma sqrt_Rpower_pos (r : R) : 0 < sqrt (Rpower 10 r).
Proof. apply sqrt_lt_R0, Rpower_pos. Qed.

(** ** Classification against the band *)

(** Expose the fields of a state built by [createSimulationFromRow]. *)
Ltac state_fields :=
  cbv beta iota zeta delta
    [createSimulationFromRow set_time update getOrbitPoints getPlanetPosition
     plName hostName orbitAu planetRadiusRe hzInnerAu hzOuterAu
     inHabitableZone habitableZoneStatus orbitalPeriodDays starRadius
     orbitRadius planetRadius hzInner hzOuter orbitEccentricity
     eccentricityKnown orbitPointsCache time].

(** C1. In every constructed state the orbit radius and the two bounds of
    the band are finite, and the status is "in" exactly when
    [hzInnerAu <= orbitAu <= hzOuterAu] (bounds included), "too-close"
    exactly when [orbitAu < hzInnerAu] and "too-far" exactly when
    [orbitAu > hzOuterAu]. *)
Theorem habitable_zone_status_classification
    (row : gmap string value) (calls : list call) :
  let s := run calls (createSimulationFromRow row) in
  exists a i o : R,
    orbitAu s = Fin a /\ hzInnerAu s = Fin i /\ hzOuterAu s = Fin o /\
    (habitableZoneStatus s = StatusIn <-> i <= a <= o) /\
    (habitableZoneStatus s = StatusTooClose <-> a < i) /\
    (habitableZoneStatus s = StatusTooFar <-> o < a).
Proof.
  intros s. subst s. reached calls (createSimulationFromRow row) t.
  state_fields.
  destruct (num_finite row "pl_orbsmax" 1) as [a ->].
  destruct (num_finite row "st_lum" 0) as [l ->].
  rewrite habitableZoneAU_finite.
  pose proof (sqrt_Rpower_pos l) as Hs.
  exists a, (0.75 * sqrt (Rpower 10 l)), (1.77 * sqrt (Rpower 10 l)).
  cbn [inner outer js_ge js_le js_lt].
  real_cases; cbn [andb]; repeat split; intros; try discriminate; try lra;
    try reflexivity.
Qed.

(** C10. The boolean [inHabitableZone] of a constructed state is true
    exactly when its [habitableZoneStatus] is "in". *)
Theorem in_habitable_zone_consistent
    (row : gmap string value) (calls : list call) :
  let s := run calls (createSimulationFromRow row) in
  inHabitableZone s = true <-> habitableZoneStatus s = StatusIn.
Proof.
  intros s. subst s. reached calls (createSimulationFromRow row) t.
  state_fields.
  destruct (_ && _); [tauto|].
  destruct (js_lt _ _); split; discriminate.
Qed.


(** ** The phase accumulator *)



(** ** The orbit-point cache and the frame of [update] *)

(** C9. Whatever calls are made on a constructed state, every derived field
    and the orbit-point cache stay as construction left them, and
    [getOrbitPoints()] is the sequence of 65 points whose [i]-th entry is
    [positionAtTime (i * 2 * PI / 64)], for [i] from 0 to 64. *)
Theorem update_frame_and_orbit_points
    (row : gmap string value) (calls : list call) :
  let s0 := createSimulationFromRow row in
  let s := run calls s0 in
  same_parameters s0 s /\
  length (getOrbitPoints s) = 65%nat /\
  getOrbitPoints s =
    map (fun i : nat =>
           positionAtTime (orbitRadius s) (orbitEccentricity s)
             (Fin (INR i * (2 * PI) / 64)))
        (seq 0 65).
Proof.
  intros s0 s. subst s s0.
  reached calls (createSimulationFromRow row) t.
  split; [|split].
  - unfold same_parameters. repeat split; reflexivity.
  - unfold getOrbitPoints. cbn [set_time orbitPointsCache].
    unfold createSimulationFromRow. cbn [orbitPointsCache].
    rewrite fillOrbitPoints_map. cbn [app]. now rewrite length_map, length_seq.
  - unfold getOrbitPoints. cbn [set_time orbitPointsCache orbitRadius
      orbitEccentricity].
    unfold createSimulationFromRow.
    cbn [orbitPointsCache orbitRadius orbitEccentricity].
    rewrite fillOrbitPoints_map. cbn [app].
    apply map_ext. intros i. now rewrite orbitPointAngle_real.
Qed.

(** ** Numeric fields *)

Lemma property_singleton (key : string) (v : value) :
  property {[key := v]} key = v.
Proof. unfold property. now rewrite lookup_singleton_eq. Qed.

Lemma property_singleton_ne (key key' : string) (v : value) :
  key <> key' -> property {[key := v]} key' = VUndefined.
Proof. intros H. unfold property. now rewrite lookup_singleton_ne. Qed.

(** The field a record with one entry, under [key] or under its upper-case
    form, resolves to. *)
Lemma get_upper_only (key : string) (v : value) :
  get {[toUpperCase key := v]} key = if is_nullish v then VNull else v.
Proof.
  rewrite get_resolves. cbv zeta. unfold nullish_coalesce.
  destruct (decide (toUpperCase key = key)) as [E|E].
  - rewrite E, property_singleton.
    destruct (is_nullish v) eqn:Hv; now rewrite ?Hv.
  - rewrite property_singleton_ne, property_singleton by assumption.
    reflexivity.
Qed.

(** C5. [num] returns [Number(v)] for the value [v] found at the key as
    given or, when that one is [null] or [undefined], at the upper-case key,
    provided [v] is neither [null] nor [undefined] and [Number(v)] is finite;
    in every other case it returns the fallback.  A record that has the
    field under its upper-case name only yields that field's number, and the
    string "N/A" yields the fallback. *)
Theorem num_extraction
    (row : gmap string value) (key : string) (fallback : number) :
  let lower := property row key in
  let upper := property row (toUpperCase key) in
  let v := if is_nullish lower then upper else lower in
  num row key fallback =
    (if is_nullish v then fallback
     else if Number_isFinite (Number v) then Number v else fallback) /\
  (forall r : R,
     num {[toUpperCase key := VNumber (Fin r)]} key fallback = Fin r) /\
  num {[key := VString "N/A"]} key fallback = fallback.
Proof.
  cbv zeta. split; [|split].
  - unfold num. rewrite get_nullish. rewrite get_resolves. cbv zeta.
    unfold nullish_coalesce.
    destruct (is_nullish (property row key)) eqn:Hl.
    + destruct (is_nullish (property row (toUpperCase key))) eqn:Hu;
        cbn [negb andb]; reflexivity.
    + rewrite Hl. cbn [negb andb]. reflexivity.
  - intros r. unfold num. rewrite get_upper_only. reflexivity.
  - unfold num. rewrite get_resolves. cbv zeta. rewrite property_singleton.
    reflexivity.
Qed.

(** ** Elapsed time *)





(** ** The phase accumulator over a sequence of calls *)

Lemma time_update (s : SimulationState) (dt : number) :
  time (update s dt) = js_add (time s) dt.
Proof. reflexivity. Qed.

Lemma invoke_keeps_time (c : call) (s : SimulationState) :
  (forall dt, c <> CallUpdate dt) -> fst (invoke c s) = s.
Proof.
  intros H. destruct c; try reflexivity. now destruct (H deltaTime).
Qed.

(** Calls that never step backwards never lower the phase. *)
Lemma run_forward_monotone (calls : list call) :
  forall (s : SimulationState) (p : R),
    time s = Fin p -> Forall forward_call calls ->
    exists p', time (run calls s) = Fin p' /\ p <= p'.
Proof.
  induction calls as [|c rest IH]; intros s p Hs Hf.
  - exists p. split; [exact Hs|lra].
  - inversion Hf as [|c' rest' Hc Hrest]; subst.
    destruct c as [|dt| | |]; cbn [run invoke fst];
      try (apply IH; assumption).
    destruct Hc as (d & -> & Hd).
    destruct (IH (update s (Fin d)) (p + d)) as (p' & Hp' & Hle).
    + rewrite time_update, Hs. reflexivity.
    + assumption.
    + exists p'. split; [exact Hp'|lra].
Qed.

(** A backward step is not refused: one update by [-1] on a fresh state
    leaves the phase at [-1], which is negative. *)
Lemma phase_negative_after_backward_update :
  time (run [CallUpdate (Fin (-1))] (createSimulationFromRow ∅)) = Fin (-1) /\
  js_ge (time (run [CallUpdate (Fin (-1))] (createSimulationFromRow ∅)))
    (Fin 0) = false.
Proof.
  cbn [run invoke fst]. rewrite time_update.
  replace (time (createSimulationFromRow ∅)) with (Fin 0) by reflexivity.
  cbn [js_add]. replace (0 + -1) with (-1) by lra.
  split; [reflexivity|]. cbn. apply Rleb_false. lra.
Qed.

(** C7, amended. The phase is 0 at construction; [update(dt)]
    replaces it by [phase + dt] whatever the sign of [dt]; after calls whose
    updates all step by [dt >= 0] it is non-negative, and a further update by
    [dt >= 0] does not lower it; no call other than [update] changes the
    state. *)
Theorem phase_accumulator
    (row : gmap string value) (calls : list call) :
  let s0 := createSimulationFromRow row in
  time s0 = Fin 0 /\
  (forall (s : SimulationState) (p dt : R),
     time s = Fin p -> time (update s (Fin dt)) = Fin (p + dt)) /\
  (Forall forward_call calls ->
   exists p : R,
     time (run calls s0) = Fin p /\ 0 <= p /\
     forall dt : R, 0 <= dt ->
       time (update (run calls s0) (Fin dt)) = Fin (p + dt) /\ p <= p + dt) /\
  (forall (c : call) (s : SimulationState),
     (forall dt, c <> CallUpdate dt) -> fst (invoke c s) = s).
Proof.
  cbv zeta. split; [reflexivity|]. split; [|split].
  - intros s p dt Hs. now rewrite time_update, Hs.
  - intros Hf.
    destruct (run_forward_monotone calls (createSimulationFromRow row) 0)
      as (p & Hp & Hle); [reflexivity|assumption|].
    exists p. repeat split; try assumption.
    + now rewrite time_update, Hp.
    + lra.
  - apply invoke_keeps_time.
Qed.

Lemma phase_accumulator_witness :
  exists p : R,
    time (run [CallUpdate (Fin 0.005); CallGetPlanetPosition;
               CallUpdate (Fin 0.005)] (createSimulationFromRow ∅)) = Fin p /\
    0 <= p.
Proof.
  destruct (phase_accumulator ∅ [CallUpdate (Fin 0.005); CallGetPlanetPosition;
                                 CallUpdate (Fin 0.005)])
    as (_ & _ & H & _).
  destruct H as (p & Hp & Hle & _).
  - repeat constructor; exists 0.005; split; try reflexivity; lra.
  - exists p. split; assumption.
Defined.

(** ** Eccentricity *)

Lemma num_singleton_number (key : string) (r : R) (fallback : number) :
  num {[key := VNumber (Fin r)]} key fallback = Fin r.
Proof.
  unfold num. rewrite get_resolves. cbv zeta. unfold nullish_coalesce.
  rewrite property_singleton. reflexivity.
Qed.

Lemma orbitEccentricity_from_row (row : gmap string value) :
  orbitEccentricity (createSimulationFromRow row) =
  Math_min (Fin 0.99) (num row "pl_orbeccen" (Fin 0)).
Proof. reflexivity. Qed.

(** The clamp is one-sided: a record whose [pl_orbeccen] is [-0.5] gives a
    state whose eccentricity is [-0.5], outside [0, 0.99]. *)
Lemma negative_eccentricity_kept :
  orbitEccentricity
    (createSimulationFromRow {["pl_orbeccen" := VNumber (Fin (-0.5))]})
  = Fin (-0.5) /\
  ~ (0 <= -0.5 <= 0.99).
Proof.
  split; [|lra].
  rewrite orbitEccentricity_from_row, num_singleton_number.
  cbn [Math_min]. f_equal. unfold Rmin. destruct (Rle_dec 0.99 (-0.5)); lra.
Qed.

(** C4, amended. The eccentricity of a constructed state is
    [min(0.99, e)], where [e] is the number of the record's [pl_orbeccen]
    (0 when the field is absent or not finite): it is at most 0.99 for every
    record, and lies in [0, 0.99] whenever [e] is not negative, in particular
    whenever [eccentricityKnown] is false. *)
Theorem eccentricity_bounds
    (row : gmap string value) (calls : list call) :
  let s := run calls (createSimulationFromRow row) in
  exists e : R,
    num row "pl_orbeccen" (Fin 0) = Fin e /\
    orbitEccentricity s = Fin (Rmin 0.99 e) /\
    Rmin 0.99 e <= 0.99 /\
    (0 <= e -> 0 <= Rmin 0.99 e <= 0.99) /\
    (eccentricityKnown s = false -> e = 0).
Proof.
  intros s. subst s. reached calls (createSimulationFromRow row) t.
  cbn [set_time orbitEccentricity eccentricityKnown].
  rewrite orbitEccentricity_from_row.
  destruct (num_finite row "pl_orbeccen" 0) as [e He].
  exists e. rewrite He. cbn [Math_min].
  repeat split; try reflexivity.
  - apply Rmin_l.
  - apply Rmin_glb; lra.
  - apply Rmin_l.
  - intros Hk. unfold createSimulationFromRow in Hk.
    cbn [eccentricityKnown] in Hk. unfold num in He. rewrite Hk in He.
    now injection He.
Qed.

Lemma eccentricity_bounds_witness :
  orbitEccentricity
    (createSimulationFromRow {["pl_orbeccen" := VNumber (Fin 0.2)]})
  = Fin (Rmin 0.99 0.2) /\
  0 <= Rmin 0.99 0.2 <= 0.99.
Proof.
  destruct (eccentricity_bounds {["pl_orbeccen" := VNumber (Fin 0.2)]} [])
    as (e & He & Hs & _ & Hin & _).
  rewrite num_singleton_number in He. injection He as <-.
  split; [exact Hs|]. apply Hin. lra.
Defined.

(** ** Position on the orbit *)

Lemma orbitRadius_from_row (row : gmap string value) :
  orbitRadius (createSimulationFromRow row) = num row "pl_orbsmax" (Fin 1).
Proof. reflexivity. Qed.


(** The position, over the reals, when the divisor is not zero. *)
Lemma positionAtTime_real (a e t : R) :
  1 + e * cos t <> 0 ->
  let r := a * (1 - e * e) / (1 + e * cos t) in
  positionAtTime (Fin a) (Fin e) (Fin t) =
  {| x := Fin (r * cos t); y := Fin 0; z := Fin (r * sin t) |}.
Proof.
  intros Hd r. unfold positionAtTime, radiusAtAngle.
  cbn [Math_cos Math_sin js_mul js_sub js_add js_div].
  replace (Reqb (1 + e * cos t) 0) with false
    by (symmetry; now apply Reqb_false).
  cbn [js_mul]. subst r. unfold Rminus. reflexivity.
Qed.

Lemma y_positionAtTime (a e t : number) : y (positionAtTime a e t) = Fin 0.
Proof. reflexivity. Qed.




Lemma Rmin_099_0 : Rmin 0.99 0 = 0.
Proof. apply Rmin_right. lra. Qed.




(** * Further properties of [model.ts] *)

(** ** Display radii *)

(** X1. The star and the planet are drawn with finite radii that never fall
    below the floors 0.012 and 0.008, whatever the record holds: they are
    [max(0.012, st_rad * 0.005)] and [max(0.008, pl_rade * 0.00004)], so a
    zero or negative catalogue radius is drawn at the floor. *)
Theorem display_radii_floor
    (row : gmap string value) (calls : list call) :
  let s := run calls (createSimulationFromRow row) in
  exists stRad plRade : R,
    num row "st_rad" (Fin 1) = Fin stRad /\
    num row "pl_rade" (Fin 1) = Fin plRade /\
    planetRadiusRe s = Fin plRade /\
    starRadius s = Fin (Rmax 0.012 (stRad * 0.005)) /\
    planetRadius s = Fin (Rmax 0.008 (plRade * 0.00004)) /\
    0.012 <= Rmax 0.012 (stRad * 0.005) /\
    0.008 <= Rmax 0.008 (plRade * 0.00004) /\
    (stRad <= 2.4 -> starRadius s = Fin 0.012) /\
    (plRade <= 200 -> planetRadius s = Fin 0.008).
Proof.
  intros s. subst s. reached calls (createSimulationFromRow row) t.
  state_fields.
  destruct (num_finite row "st_rad" 1) as [stRad ->].
  destruct (num_finite row "pl_rade" 1) as [plRade ->].
  exists stRad, plRade.
  unfold MIN_STAR_RADIUS, MIN_PLANET_RADIUS, SUN_RADIUS_AU.
  cbn [js_mul Math_max].
  repeat split; try apply Rmax_l.
  - intros H. f_equal. apply Rmax_left. lra.
  - intros H. f_equal. apply Rmax_left. lra.
Qed.

Lemma display_radii_floor_witness :
  starRadius (createSimulationFromRow ∅) = Fin 0.012 /\
  planetRadius (createSimulationFromRow ∅) = Fin 0.008.
Proof.
  destruct (display_radii_floor ∅ [])
    as (stRad & plRade & Hs & Hp & _ & _ & _ & _ & _ & H1 & H2).
  rewrite num_empty in Hs, Hp. injection Hs as <-. injection Hp as <-.
  split; [apply H1|apply H2]; lra.
Defined.

(** ** Names *)

(** X2. The planet and host names of a state are never empty or null: a
    truthy [pl_name] or [hostname] field, under either spelling of the key,
    is kept as it is, and anything else is replaced by "Planet" or "Star".
    When the record has a truthy name, it is also the name the result list
    shows for the row. *)
Theorem display_names
    (row : gmap string value) (calls : list call) :
  let s := run calls (createSimulationFromRow row) in
  truthy (plName s) = true /\ truthy (hostName s) = true /\
  (truthy (get row "pl_name") = true ->
   plName s = get row "pl_name" /\ listedName row = plName s) /\
  (truthy (get row "pl_name") = false -> plName s = VString "Planet") /\
  (truthy (get row "hostname") = true -> hostName s = get row "hostname") /\
  (truthy (get row "hostname") = false -> hostName s = VString "Star").
Proof.
  intros s. subst s. reached calls (createSimulationFromRow row) t.
  state_fields. unfold logical_or.
  repeat split; intros.
  - destruct (truthy (get row "pl_name")) eqn:E; [exact E|reflexivity].
  - destruct (truthy (get row "hostname")) eqn:E; [exact E|reflexivity].
  - now rewrite H.
  - rewrite H. revert H. unfold listedName, get.
    change (toUpperCase "pl_name") with "PL_NAME"%string.
    generalize (nullish_coalesce (property row "pl_name")
                  (property row "PL_NAME")).
    intros v. unfold nullish_coalesce.
    destruct (is_nullish v); [discriminate|reflexivity].
  - now rewrite H.
  - now rewrite H.
  - now rewrite H.
Qed.

Lemma display_names_witness :
  plName (createSimulationFromRow {["PL_NAME" := VString "Kepler-22 b"]})
  = VString "Kepler-22 b" /\
  listedName {["PL_NAME" := VString "Kepler-22 b"]} = VString "Kepler-22 b".
Proof.
  destruct (display_names {["PL_NAME" := VString "Kepler-22 b"]} [])
    as (_ & _ & H & _).
  destruct H as [H1 H2]; [reflexivity|].
  cbn [run] in *. split; [exact H1|]. rewrite H2. exact H1.
Defined.

(** ** Shape of the orbit *)


Lemma unknown_eccentricity_zero (row : gmap string value) :
  eccentricityKnown (createSimulationFromRow row) = false ->
  orbitEccentricity (createSimulationFromRow row) = Fin 0.
Proof.
  intros Hk. rewrite orbitEccentricity_from_row.
  unfold createSimulationFromRow in Hk. cbn [eccentricityKnown] in Hk.
  unfold num. rewrite Hk. cbn [Math_min]. now rewrite Rmin_099_0.
Qed.

(** X3. A record without a usable [pl_orbeccen] gives a circular orbit:
    [eccentricityKnown] is false exactly when the field is missing, null or
    not a finite number, the eccentricity is then 0, the planet starts at
    [(orbitAu, 0, 0)] and at every phase [t] it is at
    [(a * cos t, 0, a * sin t)] for [a = orbitAu]. *)
Theorem unknown_eccentricity_is_circular
    (row : gmap string value) (calls : list call) :
  let s0 := createSimulationFromRow row in
  let s := run calls s0 in
  eccentricityKnown s =
    negb (is_nullish (get row "pl_orbeccen"))
    && Number_isFinite (Number (get row "pl_orbeccen")) /\
  (eccentricityKnown s = false ->
   exists a : R,
     orbitAu s = Fin a /\
     orbitEccentricity s = Fin 0 /\
     getPlanetPosition s0 = {| x := Fin a; y := Fin 0; z := Fin 0 |} /\
     forall t : R,
       positionAtTime (orbitRadius s) (orbitEccentricity s) (Fin t)
       = {| x := Fin (a * cos t); y := Fin 0; z := Fin (a * sin t) |}).
Proof.
  intros s0 s.
  split.
  { subst s s0. reached calls (createSimulationFromRow row) t. reflexivity. }
  intros Hu.
  assert (Hecc : orbitEccentricity s = Fin 0).
  { revert Hu. subst s s0. reached calls (createSimulationFromRow row) t.
    cbn [set_time eccentricityKnown orbitEccentricity].
    apply unknown_eccentricity_zero. }
  assert (Ha : exists a, orbitAu s = Fin a /\ orbitRadius s = Fin a
                         /\ orbitRadius s0 = Fin a
                         /\ orbitEccentricity s0 = Fin 0).
  { revert Hecc. subst s s0.
    reached calls (createSimulationFromRow row) t.
    cbn [set_time orbitAu orbitRadius orbitEccentricity]. intros Hecc.
    change (orbitAu (createSimulationFromRow row))
      with (orbitRadius (createSimulationFromRow row)).
    rewrite orbitRadius_from_row.
    destruct (num_finite row "pl_orbsmax" 1) as [a ->]. exists a. auto. }
  destruct Ha as (a & Hau & Hor & Hor0 & Hecc0).
  assert (Hpos : forall t : R,
             positionAtTime (Fin a) (Fin 0) (Fin t)
             = {| x := Fin (a * cos t); y := Fin 0; z := Fin (a * sin t) |}).
  { intros t. rewrite positionAtTime_real by lra. cbv zeta.
    f_equal; f_equal; field; lra. }
  exists a. repeat split; try assumption.
  - unfold getPlanetPosition. rewrite Hor0, Hecc0.
    replace (time s0) with (Fin 0) by reflexivity.
    rewrite Hpos, cos_0, sin_0. f_equal; f_equal; ring.
  - intros t. rewrite Hor, Hecc. apply Hpos.
Qed.

Lemma unknown_eccentricity_is_circular_witness :
  getPlanetPosition
    (createSimulationFromRow {["pl_orbsmax" := VNumber (Fin 5.2)]})
  = {| x := Fin 5.2; y := Fin 0; z := Fin 0 |}.
Proof.
  destruct (unknown_eccentricity_is_circular
              {["pl_orbsmax" := VNumber (Fin 5.2)]} []) as [_ H].
  destruct H as (a & Ha & _ & Hp & _); [reflexivity|].
  cbn [run] in Ha.
  change (orbitAu (createSimulationFromRow {["pl_orbsmax" := VNumber (Fin 5.2)]}))
    with (orbitRadius
            (createSimulationFromRow {["pl_orbsmax" := VNumber (Fin 5.2)]}))
    in Ha.
  rewrite orbitRadius_from_row, num_singleton_number in Ha.
  injection Ha as <-. exact Hp.
Defined.



(** ** Periodicity *)





(** ** Elapsed time and the phase *)








(** ** How the band scales with luminosity *)






(** * Properties of [scene.ts] *)

(** ** The three disks *)



(** ** The camera *)
















(** ** Dragging and zooming *)

Lemma moves_ignored_when_released
    (s : SimulationState) (ys : list number) (c : Camera) :
  isDragging c = false -> handleAll s (map MouseMove ys) c = c.
Proof.
  intros H. induction ys as [|v ys IH]; cbn [map handleAll handle].
  - reflexivity.
  - rewrite H. cbn [negb]. exact IH.
Qed.

(** X12. Mouse moves rotate the camera only while a button is held: moves
    before the first press, and moves after a release or after the pointer
    has left the canvas, leave the camera exactly as it was. *)
Theorem moves_without_drag_ignored
    (s : SimulationState) (ys : list number) (c : Camera) :
  handleAll s (map MouseMove ys) (initialCamera s) = initialCamera s /\
  handleAll s (MouseUp :: map MouseMove ys) c = handle s MouseUp c /\
  handleAll s (MouseLeave :: map MouseMove ys) c = handle s MouseLeave c /\
  cameraPhi (handle s MouseUp c) = cameraPhi c /\
  cameraRadius (handle s MouseUp c) = cameraRadius c /\
  cameraPosition (handle s MouseUp c) = cameraPosition c.
Proof.
  repeat split; cbn [handleAll];
    try (apply moves_ignored_when_released; reflexivity).
Qed.





(** ** The frame loop *)




